(** * The VST3 module loader of [file.c]

    [main] opens one shared library, looks up its [ModuleEntry] symbol,
    calls it with the library handle and closes the library again.  All
    of its behaviour is the sequence of calls it makes into libc and into
    the loaded module, so the program is embedded as a tree of external
    calls and run against an arbitrary operating system: a function
    answering each call from a state of its own.  Every call is taken
    to return. *)

From Stdlib Require Import ZArith List String Ascii Bool Lia.
Import ListNotations.
Local Open Scope string_scope.
Local Open Scope list_scope.
Local Open Scope Z_scope.

(** ** C values *)

(** Object and function pointers are addresses; the null pointer is 0. *)
Definition ptr := Z.
Definition NULL : ptr := 0.

(** [!p] on a pointer and [!n] on an integer (a [char] is promoted to
    [int] first, which keeps its value). *)
Definition is_null (p : ptr) : bool := p =? NULL.
Definition lnot (n : Z) : bool := n =? 0.
(** [if (n)] on an integer. *)
Definition truthy (n : Z) : bool := negb (n =? 0).

(** [RTLD_LAZY] of glibc's <dlfcn.h>. *)
Definition RTLD_LAZY : Z := 1.

Definition nl : string := String (ascii_of_nat 10) EmptyString.

(** ** External calls *)

(** The calls [main] makes: four into the dynamic loader and the module,
    two into stdio.  [CallEntry f arg] is the call [f(arg)] through a
    pointer of type [ModuleEntryFunc]. *)
Inductive event : Type :=
| Dlopen (path : string) (flags : Z)
| Dlsym (handle : ptr) (symbol : string)
| CallEntry (f : ptr) (arg : ptr)
| Dlclose (handle : ptr)
| Perror (s : string)
| Printf (s : string).

(** What each call returns: a pointer from [dlopen] and [dlsym], a
    [char] from a [ModuleEntryFunc], an [int] from [dlclose] and
    [printf], nothing from [perror]. *)
Definition resp (e : event) : Type :=
  match e with
  | Perror _ => unit
  | _ => Z
  end.

(** Programs over these calls, with the usual sequencing. *)
Inductive prog (A : Type) : Type :=
| Ret (a : A)
| Vis (e : event) (k : resp e -> prog A).
Arguments Ret {A} a.
Arguments Vis {A} e k.

Fixpoint bind {A B : Type} (m : prog A) (f : A -> prog B) : prog B :=
  match m with
  | Ret a => f a
  | Vis e k => Vis e (fun x => bind (k x) f)
  end.

Definition call (e : event) : prog (resp e) := Vis e (fun x => Ret x).

Notation "x <- m ;; f" := (bind m (fun x => f))
  (at level 61, m at next level, right associativity).
Notation "m ;;; f" := (bind m (fun _ => f))
  (at level 61, right associativity).

Definition dlopen (path : string) (flags : Z) : prog ptr := call (Dlopen path flags).
Definition dlsym (handle : ptr) (symbol : string) : prog ptr := call (Dlsym handle symbol).
Definition dlclose (handle : ptr) : prog Z := call (Dlclose handle).
Definition perror (s : string) : prog unit := call (Perror s).
Definition printf (s : string) : prog Z := call (Printf s).
Definition invoke (f : ptr) (arg : ptr) : prog Z := call (CallEntry f arg).

(** ** The program *)

Definition path : string :=
  "/home/mikedorf/dev/vst3sdk/build/VST3/Debug/adelay.vst3/Contents/x86_64-linux/adelay.so".

(** [int main()]: every [return] inside an [if] ends the program, the
    code after the [if] is its [else] branch. *)
Definition main : prog Z :=
  lib <- dlopen path RTLD_LAZY ;;
  if is_null lib then
    perror "dlopen" ;;;
    Ret 1
  else
    entryFunc <- dlsym lib "ModuleEntry" ;;
    if is_null entryFunc then
      perror "dlsym" ;;;
      dlclose lib ;;;
      Ret 1
    else
      r <- invoke entryFunc lib ;;
      if lnot r then
        printf ("failed to init" ++ nl)%string ;;;
        Ret 1
      else
        c <- dlclose lib ;;
        if truthy c then
          perror "dlclose" ;;;
          Ret 1
        else
          Ret 0.

(** The status the parent process sees: the low eight bits of what
    [main] returns. *)
Definition exit_status (ret : Z) : Z := Z.land ret 255.

(** ** Running a program *)

(** One entry of the log of a run: a call together with its result. *)
Inductive obs : Type :=
| ObsDlopen (path : string) (flags : Z) (lib : ptr)
| ObsDlsym (handle : ptr) (symbol : string) (f : ptr)
| ObsCall (f : ptr) (arg : ptr) (r : Z)
| ObsDlclose (handle : ptr) (c : Z)
| ObsPerror (s : string)
| ObsPrintf (s : string) (n : Z).

Definition trace := list obs.

Definition observe (e : event) : resp e -> obs :=
  match e with
  | Dlopen p fl => fun x => ObsDlopen p fl x
  | Dlsym h s => fun x => ObsDlsym h s x
  | CallEntry f a => fun x => ObsCall f a x
  | Dlclose h => fun x => ObsDlclose h x
  | Perror s => fun _ => ObsPerror s
  | Printf s => fun x => ObsPrintf s x
  end.

(** The value a logged call returned ([None] for [void perror]). *)
Definition answer (o : obs) : option Z :=
  match o with
  | ObsDlopen _ _ x | ObsDlsym _ _ x | ObsCall _ _ x
  | ObsDlclose _ x | ObsPrintf _ x => Some x
  | ObsPerror _ => None
  end.

Definition answers (t : trace) : list (option Z) := map answer t.

(** What the dynamic loader and the module answered in a run: the
    values returned by [dlopen], [dlsym], the entry function and
    [dlclose], in order.  The results of the stdio calls are left out. *)
Definition loader_answer (o : obs) : option Z :=
  match o with
  | ObsDlopen _ _ x | ObsDlsym _ _ x | ObsCall _ _ x | ObsDlclose _ x => Some x
  | ObsPerror _ | ObsPrintf _ _ => None
  end.

Fixpoint loader_answers (t : trace) : list Z :=
  match t with
  | [] => []
  | o :: t' =>
      match loader_answer o with
      | Some x => x :: loader_answers t'
      | None => loader_answers t'
      end
  end.

(** The call of a log entry, without its result. *)
Definition request (o : obs) : event :=
  match o with
  | ObsDlopen p fl _ => Dlopen p fl
  | ObsDlsym h s _ => Dlsym h s
  | ObsCall f a _ => CallEntry f a
  | ObsDlclose h _ => Dlclose h
  | ObsPerror s => Perror s
  | ObsPrintf s _ => Printf s
  end.

Definition requests (t : trace) : list event := map request t.

(** An operating system (with the file system and the modules it can
    load) answers each call from its current state and moves on. *)
Definition OS (world : Type) : Type := forall e : event, world -> resp e * world.

(** The result of a run: the value returned, the log, the final state. *)
Record outcome (A world : Type) : Type := Outcome {
  returned : A;
  log : trace;
  final : world
}.
Arguments Outcome {A world} returned log final.
Arguments returned {A world} o.
Arguments log {A world} o.
Arguments final {A world} o.

Fixpoint run {world A : Type} (os : OS world) (p : prog A) (w : world)
  : outcome A world :=
  match p with
  | Ret a => Outcome a [] w
  | Vis e k =>
      let (x, w') := os e w in
      let o := run os (k x) w' in
      Outcome (returned o) (observe e x :: log o) (final o)
  end.

(** ** Reading a log *)

(** The four steps of the loader. *)
Inductive op : Type := Load | Resolve | Invoke | Unload.

Definition op_eqb (a b : op) : bool :=
  match a, b with
  | Load, Load | Resolve, Resolve | Invoke, Invoke | Unload, Unload => true
  | _, _ => false
  end.

(** The step a logged call belongs to and whether it succeeded, by the
    test [main] applies to its result: a non-null handle, a non-null
    symbol address, a non-zero result of the entry function, a zero
    result of [dlclose]. *)
Definition step_of (o : obs) : option (op * bool) :=
  match o with
  | ObsDlopen _ _ lib => Some (Load, negb (is_null lib))
  | ObsDlsym _ _ f => Some (Resolve, negb (is_null f))
  | ObsCall _ _ r => Some (Invoke, negb (lnot r))
  | ObsDlclose _ c => Some (Unload, negb (truthy c))
  | ObsPerror _ | ObsPrintf _ _ => None
  end.

Fixpoint steps (t : trace) : list (op * bool) :=
  match t with
  | [] => []
  | o :: t' =>
      match step_of o with
      | Some s => s :: steps t'
      | None => steps t'
      end
  end.

(** The operations of a run, in order. *)
Definition ops (t : trace) : list op := map fst (steps t).

Definition attempts (o : op) (t : trace) : nat :=
  List.length (filter (op_eqb o) (ops t)).

Definition step_eqb (a b : op * bool) : bool :=
  op_eqb (fst a) (fst b) && Bool.eqb (snd a) (snd b).

Definition succeeded (o : op) (t : trace) : bool :=
  existsb (step_eqb (o, true)) (steps t).

Definition failed (o : op) (t : trace) : bool :=
  existsb (step_eqb (o, false)) (steps t).

(** The messages of a run, in order. *)
Definition is_diagnostic (o : obs) : bool :=
  match o with
  | ObsPerror _ | ObsPrintf _ _ => true
  | _ => false
  end.

Definition diagnostics (t : trace) : trace := filter is_diagnostic t.

(** The exit status and the log of the run of [main] on [os] from [w]. *)
Definition status {world : Type} (os : OS world) (w : world) : Z :=
  exit_status (returned (run os main w)).

Definition history {world : Type} (os : OS world) (w : world) : trace :=
  log (run os main w).

(** Where libc writes a message: [perror] to the standard error stream
    (descriptor 2), [printf] to the standard output stream (1). *)
Definition written_to (o : obs) : option Z :=
  match o with
  | ObsPerror _ => Some 2
  | ObsPrintf _ _ => Some 1
  | _ => None
  end.

(** ** The state machine of the specification *)

(** Follows the specification's words: the states
    Start, Loaded, Resolved, Invoked, Unloaded, Success, and a terminal
    failed state carrying which step failed. *)
Inductive error_kind : Type :=
| LoadError | SymbolError | InvocationFailure | UnloadError.

Inductive state : Type :=
| Start | Loaded | Resolved | Invoked | Unloaded | Success
| Failed (k : error_kind).

(** One edge per step and result: forward when the step succeeds, to
    the failed state when it does not.  Nothing leaves a terminal
    state, and no edge goes back. *)
Definition spec_step (s : state) (l : op * bool) : option state :=
  match s, l with
  | Start, (Load, true) => Some Loaded
  | Start, (Load, false) => Some (Failed LoadError)
  | Loaded, (Resolve, true) => Some Resolved
  | Loaded, (Resolve, false) => Some (Failed SymbolError)
  | Resolved, (Invoke, true) => Some Invoked
  | Resolved, (Invoke, false) => Some (Failed InvocationFailure)
  | Invoked, (Unload, true) => Some Unloaded
  | Invoked, (Unload, false) => Some (Failed UnloadError)
  | _, _ => None
  end.

(** The edge from Unloaded to Success takes no operation. *)
Definition spec_settle (s : state) : state :=
  match s with
  | Unloaded => Success
  | _ => s
  end.

Definition spec_terminal (s : state) : bool :=
  match s with
  | Success | Failed _ => true
  | _ => false
  end.

Fixpoint spec_walk (s : state) (ls : list (op * bool)) : option state :=
  match ls with
  | [] => Some (spec_settle s)
  | l :: ls' =>
      match spec_step s l with
      | Some s' => spec_walk s' ls'
      | None => None
      end
  end.

(** ** Two small operating systems *)

Module Fixtures.

(** Answers read off a script, one per call that returns a value; 0
    once the script is used up. *)
Definition scripted : OS (list Z) :=
  fun e =>
    match e return list Z -> resp e * list Z with
    | Perror _ => fun w => (tt, w)
    | _ => fun w =>
        match w with
        | [] => (0, [])
        | x :: w' => (x, w')
        end
    end.

(** A machine with one module on disk; its state is the text on the
    console. *)
Record module_image : Type := Image {
  base : ptr;
  entry : ptr;
  init_result : Z;
  close_result : Z
}.

Definition machine (m : module_image) : OS string :=
  fun e =>
    match e return string -> resp e * string with
    | Dlopen _ _ => fun w => (base m, w)
    | Dlsym _ _ => fun w => (entry m, w)
    | CallEntry _ _ => fun w => (init_result m, w)
    | Dlclose _ => fun w => (close_result m, w)
    | Perror s => fun w => (tt, (w ++ s ++ ": error" ++ nl)%string)
    | Printf s => fun w => (Z.of_nat (String.length s), (w ++ s)%string)
    end.

Definition good : module_image := Image 4096 4104 1 0.
Definition missing : module_image := Image 0 0 0 0.
Definition no_symbol : module_image := Image 4096 0 0 0.
Definition init_fails : module_image := Image 4096 4104 0 0.
Definition close_fails : module_image := Image 4096 4104 1 (-1).

End Fixtures.

(** ** The runs of [main] *)

(** The five shapes a run of [main] can have: the value returned and
    the log. *)
Inductive shape : Z -> trace -> Prop :=
| LoadFails :
    shape 1 [ObsDlopen path RTLD_LAZY NULL; ObsPerror "dlopen"]
| ResolveFails (lib : ptr) (c : Z) :
    lib <> NULL ->
    shape 1 [ObsDlopen path RTLD_LAZY lib; ObsDlsym lib "ModuleEntry" NULL;
             ObsPerror "dlsym"; ObsDlclose lib c]
| InvokeFails (lib f : ptr) (n : Z) :
    lib <> NULL -> f <> NULL ->
    shape 1 [ObsDlopen path RTLD_LAZY lib; ObsDlsym lib "ModuleEntry" f;
             ObsCall f lib 0; ObsPrintf ("failed to init" ++ nl)%string n]
| UnloadFails (lib f : ptr) (r c : Z) :
    lib <> NULL -> f <> NULL -> r <> 0 -> c <> 0 ->
    shape 1 [ObsDlopen path RTLD_LAZY lib; ObsDlsym lib "ModuleEntry" f;
             ObsCall f lib r; ObsDlclose lib c; ObsPerror "dlclose"]
| AllSucceed (lib f : ptr) (r : Z) :
    lib <> NULL -> f <> NULL -> r <> 0 ->
    shape 0 [ObsDlopen path RTLD_LAZY lib; ObsDlsym lib "ModuleEntry" f;
             ObsCall f lib r; ObsDlclose lib 0].

Section WithOS.

Variable world : Type.
Variable os : OS world.

Lemma run_vis (A : Type) (e : event) (k : resp e -> prog A) (w : world) :
  run os (Vis e k) w =
  Outcome (returned (run os (k (fst (os e w))) (snd (os e w))))
          (observe e (fst (os e w)) :: log (run os (k (fst (os e w))) (snd (os e w))))
          (final (run os (k (fst (os e w))) (snd (os e w)))).
Proof. simpl. destruct (os e w) as [x w']. reflexivity. Qed.

Lemma main_shape (w : world) :
  shape (returned (run os main w)) (log (run os main w)).
Proof.
  unfold main, dlopen, dlsym, dlclose, perror, printf, invoke, call.
  cbn [bind]. rewrite run_vis.
  destruct (os (Dlopen path RTLD_LAZY) w) as [lib w1]. cbn [fst snd returned log].
  unfold is_null at 1 3. destruct (Z.eqb_spec lib NULL) as [->|Hlib].
  - cbn [bind]. rewrite run_vis. simpl. apply LoadFails.
  - cbn [bind]. rewrite run_vis.
    destruct (os (Dlsym lib "ModuleEntry") w1) as [f w2]. cbn [fst snd returned log].
    unfold is_null. destruct (Z.eqb_spec f NULL) as [->|Hf].
    + cbn [bind]. rewrite !run_vis. simpl. now apply ResolveFails.
    + cbn [bind]. rewrite run_vis.
      destruct (os (CallEntry f lib) w2) as [r w3]. cbn [fst snd returned log].
      unfold lnot. destruct (Z.eqb_spec r 0) as [->|Hr].
      * cbn [bind]. rewrite run_vis. simpl. now apply InvokeFails.
      * cbn [bind]. rewrite run_vis.
        destruct (os (Dlclose lib) w3) as [c w4]. cbn [fst snd returned log].
        unfold truthy. destruct (Z.eqb_spec c 0) as [->|Hc]; cbn [negb bind].
        -- simpl. now apply AllSucceed.
        -- rewrite run_vis. simpl. now apply UnloadFails.
Qed.

End WithOS.

(** ** The tests of [main] on known values *)

Lemma is_null_neq (p : ptr) : p <> NULL -> is_null p = false.
Proof. intro H. unfold is_null. now apply Z.eqb_neq. Qed.

Lemma is_null_NULL : is_null NULL = true.
Proof. reflexivity. Qed.

Lemma lnot_neq (n : Z) : n <> 0 -> lnot n = false.
Proof. intro H. unfold lnot. now apply Z.eqb_neq. Qed.

Lemma truthy_neq (n : Z) : n <> 0 -> truthy n = true.
Proof. intro H. unfold truthy. now rewrite (proj2 (Z.eqb_neq n 0) H). Qed.

Lemma shape_status (ret : Z) (t : trace) :
  shape ret t -> exit_status ret = ret.
Proof. destruct 1; reflexivity. Qed.

(** Case analysis on the run of [main], then evaluation of what the
    goal and the hypotheses say about the log of each case. *)
Ltac known_tests :=
  repeat match goal with
  | H : ?p <> NULL |- _ =>
      let E := fresh "E" in
      pose proof (is_null_neq p H) as E; apply Z.eqb_neq in H
  | H : ?n <> 0 |- _ =>
      let E := fresh "E" in let E' := fresh "E" in
      pose proof (lnot_neq n H) as E; pose proof (truthy_neq n H) as E';
      apply Z.eqb_neq in H
  end.

Ltac read_log :=
  cbn [succeeded failed attempts ops steps step_of existsb step_eqb op_eqb
       fst snd map filter diagnostics is_diagnostic List.length
       answers answer andb orb negb Bool.eqb] in *;
  rewrite ?is_null_NULL in *;
  repeat match goal with
  | E : is_null ?p = false |- _ => rewrite ?E in *; clear E
  | E : lnot ?p = false |- _ => rewrite ?E in *; clear E
  | E : truthy ?p = true |- _ => rewrite ?E in *; clear E
  end;
  cbn [succeeded failed attempts ops steps step_of existsb step_eqb op_eqb
       fst snd map filter diagnostics is_diagnostic List.length
       answers answer andb orb negb Bool.eqb] in *.

Ltac by_shape os w :=
  unfold status, history in *;
  generalize (shape_status _ _ (main_shape _ os w));
  generalize (main_shape _ os w);
  generalize (log (run os main w));
  generalize (returned (run os main w));
  let ret := fresh "ret" in let t := fresh "t" in
  let Hs := fresh "Hs" in let Hx := fresh "Hx" in
  intros ret t Hs Hx; intros; rewrite Hx; clear Hx;
  destruct Hs; known_tests; read_log; try discriminate.

(** ** The paths of [main] *)

Section Paths.

Variable world : Type.
Variable os : OS world.
Variable w : world.

(** C1: when load, resolve, invoke (returning non-zero) and unload all
    succeed, the program exits with status 0 after exactly one load, one
    resolve, one invoke and one unload, in that order. *)
Theorem success_path :
  succeeded Load (history os w) = true ->
  succeeded Resolve (history os w) = true ->
  succeeded Invoke (history os w) = true ->
  succeeded Unload (history os w) = true ->
  status os w = 0 /\
  ops (history os w) = [Load; Resolve; Invoke; Unload] /\
  (forall o : op, attempts o (history os w) = 1%nat).
Proof.
  by_shape os w.
  repeat split. intros []; reflexivity.
Qed.

(** C2: when load and resolve succeed and the entry function returns
    zero, the program prints a message and exits with a non-zero status
    (1), and no unload is attempted before the exit: the invocation and
    its message are the last calls of the run. *)
Theorem init_failure_path :
  succeeded Load (history os w) = true ->
  succeeded Resolve (history os w) = true ->
  failed Invoke (history os w) = true ->
  status os w = 1 /\
  status os w <> 0 /\
  (exists n : Z,
     diagnostics (history os w) = [ObsPrintf ("failed to init" ++ nl)%string n]) /\
  attempts Unload (history os w) = 0%nat /\
  ops (history os w) = [Load; Resolve; Invoke].
Proof.
  by_shape os w.
  repeat split; try discriminate. now exists n.
Qed.

(** C3: the exit status is 0 exactly when all four steps succeed and 1
    exactly when one of them fails; it is never anything else, so it
    does not tell the failures apart. *)
Theorem exit_codes :
  (status os w = 0 <->
   succeeded Load (history os w) && succeeded Resolve (history os w) &&
   succeeded Invoke (history os w) && succeeded Unload (history os w) = true) /\
  (status os w = 1 <->
   failed Load (history os w) || failed Resolve (history os w) ||
   failed Invoke (history os w) || failed Unload (history os w) = true) /\
  (status os w = 0 \/ status os w = 1).
Proof.
  by_shape os w; repeat split; intros; try discriminate;
    try reflexivity; auto.
Qed.

(** C4: when the load fails, the program exits with a non-zero status
    (1) after exactly one load attempt and no resolve, invoke or unload
    attempt. *)
Theorem load_failure_path :
  failed Load (history os w) = true ->
  status os w = 1 /\
  status os w <> 0 /\
  ops (history os w) = [Load] /\
  attempts Load (history os w) = 1%nat /\
  attempts Resolve (history os w) = 0%nat /\
  attempts Invoke (history os w) = 0%nat /\
  attempts Unload (history os w) = 0%nat.
Proof.
  by_shape os w.
  repeat split; discriminate.
Qed.

(** C5: when the load succeeds and resolving "ModuleEntry" fails, the
    program prints a diagnostic, then closes the handle it got from the
    load, exits with a non-zero status (1) and never calls the entry
    function. *)
Theorem resolve_failure_path :
  succeeded Load (history os w) = true ->
  failed Resolve (history os w) = true ->
  (exists (lib : ptr) (c : Z),
     lib <> NULL /\
     history os w =
       [ObsDlopen path RTLD_LAZY lib; ObsDlsym lib "ModuleEntry" NULL;
        ObsPerror "dlsym"; ObsDlclose lib c]) /\
  diagnostics (history os w) = [ObsPerror "dlsym"] /\
  status os w = 1 /\
  status os w <> 0 /\
  attempts Unload (history os w) = 1%nat /\
  attempts Invoke (history os w) = 0%nat.
Proof.
  by_shape os w.
  repeat split; try discriminate.
  exists lib, c. split; [now apply Z.eqb_neq | reflexivity].
Qed.

(** C6: when load, resolve and invoke succeed and the unload reports a
    failure, the program prints a diagnostic and exits with a non-zero
    status (1), each of the four steps having been attempted exactly
    once. *)
Theorem unload_failure_path :
  succeeded Load (history os w) = true ->
  succeeded Resolve (history os w) = true ->
  succeeded Invoke (history os w) = true ->
  failed Unload (history os w) = true ->
  diagnostics (history os w) = [ObsPerror "dlclose"] /\
  status os w = 1 /\
  status os w <> 0 /\
  ops (history os w) = [Load; Resolve; Invoke; Unload] /\
  (forall o : op, attempts o (history os w) = 1%nat).
Proof.
  by_shape os w.
  repeat split; try discriminate. intros []; reflexivity.
Qed.

(** C7: the run follows the linear state machine Start, Loaded,
    Resolved, Invoked, Unloaded, Success with an error edge to a failed
    state: no step is attempted more than once; the steps of the run are
    a walk of the machine from Start to a terminal state (Success
    exactly when the status is 0), followed by nothing except, after a
    failed resolve, the release of the handle; and whatever follows a
    failed step is nothing, or that release. *)
Theorem linear_state_machine :
  (forall o : op, (attempts o (history os w) <= 1)%nat) /\
  (exists (walk cleanup : list (op * bool)) (s : state),
     steps (history os w) = walk ++ cleanup /\
     spec_walk Start walk = Some s /\
     spec_terminal s = true /\
     (s = Success <-> status os w = 0) /\
     (cleanup = [] \/
      (s = Failed SymbolError /\ exists b : bool, cleanup = [(Unload, b)]))) /\
  (forall (pre post : list (op * bool)) (o : op),
     steps (history os w) = pre ++ (o, false) :: post ->
     post = [] \/ (o = Resolve /\ exists b : bool, post = [(Unload, b)])).
Proof.
  by_shape os w.
  all: split; [intros []; cbn; lia | split].
  all: try (intros pre post o Hsplit;
            destruct pre as [|a1 [|a2 [|a3 [|a4 [|a5 pre]]]]];
            cbn in Hsplit; inversion Hsplit; subst; eauto; fail).
  - exists [(Load, false)], [], (Failed LoadError).
    cbn. repeat split; try discriminate; auto.
  - exists [(Load, true); (Resolve, false)], [(Unload, negb (truthy c))],
      (Failed SymbolError).
    cbn. repeat split; try discriminate; eauto.
  - exists [(Load, true); (Resolve, true); (Invoke, false)], [],
      (Failed InvocationFailure).
    cbn. repeat split; try discriminate; auto.
  - exists [(Load, true); (Resolve, true); (Invoke, true); (Unload, false)], [],
      (Failed UnloadError).
    cbn. repeat split; try discriminate; auto.
  - exists [(Load, true); (Resolve, true); (Invoke, true); (Unload, true)], [],
      Success.
    cbn. repeat split; auto.
Qed.

(** C8: each failure is reported by one message: [perror] with the name
    of the failed call as its context ("dlopen", "dlsym", "dlclose"),
    written to the standard error stream, and for a failed invocation
    the literal "failed to init" and a newline, written by [printf] to
    the standard output stream; a run of status 1 writes exactly one
    message and a run of status 0 writes none. *)
Theorem diagnostics_per_failure :
  (failed Load (history os w) = true ->
   diagnostics (history os w) = [ObsPerror "dlopen"]) /\
  (failed Resolve (history os w) = true ->
   diagnostics (history os w) = [ObsPerror "dlsym"]) /\
  (failed Invoke (history os w) = true ->
   exists n : Z,
     diagnostics (history os w) = [ObsPrintf ("failed to init" ++ nl)%string n]) /\
  (succeeded Invoke (history os w) = true ->
   failed Unload (history os w) = true ->
   diagnostics (history os w) = [ObsPerror "dlclose"]) /\
  (status os w = 1 -> exists d : obs, diagnostics (history os w) = [d]) /\
  (status os w = 0 -> diagnostics (history os w) = []) /\
  (forall (s : string) (n : Z),
     In (ObsPrintf s n) (history os w) -> s = ("failed to init" ++ nl)%string) /\
  (forall d : obs,
     In d (diagnostics (history os w)) ->
     written_to d = Some 1 \/ written_to d = Some 2).
Proof.
  by_shape os w; repeat split; intros; try discriminate; eauto.
  all: repeat match goal with
       | Hin : In _ [] |- _ => destruct Hin
       | Hin : In _ _ |- _ => destruct Hin as [Heq | Hin]
       | Heq : _ = _ :> obs |- _ => inversion Heq; clear Heq; subst
       end; cbn [written_to]; auto.
Qed.

(** C10: the entry function is never called through a null pointer:
    every call goes through the non-null address that resolving
    "ModuleEntry" returned, and when the resolution returns the null
    pointer the run is the resolve-failure path (diagnostic, release of
    the handle, status 1) and has no call. *)
Theorem entry_never_called_when_null :
  (forall (f arg : ptr) (r : Z),
     In (ObsCall f arg r) (history os w) ->
     f <> NULL /\ In (ObsDlsym arg "ModuleEntry" f) (history os w)) /\
  (forall (h : ptr) (s : string),
     In (ObsDlsym h s NULL) (history os w) ->
     (exists c : Z,
        history os w =
          [ObsDlopen path RTLD_LAZY h; ObsDlsym h "ModuleEntry" NULL;
           ObsPerror "dlsym"; ObsDlclose h c]) /\
     status os w = 1 /\
     attempts Invoke (history os w) = 0%nat).
Proof.
  by_shape os w; split; intros.
  all: repeat match goal with
       | Hin : In _ [] |- _ => destruct Hin
       | Hin : In _ _ |- _ => destruct Hin as [Heq | Hin]
       end; try discriminate.
  all: inversion Heq; clear Heq; subst.
  all: try match goal with
       | E : (NULL =? NULL) = false |- _ => discriminate E
       end.
  all: repeat split; cbn; auto; try (now apply Z.eqb_neq); eauto.
Qed.

End Paths.

(** ** Determinism *)

(** C9: [main] takes no input: it is a closed program whose only
    exchanges with its environment are the external calls.  Two runs in
    which the dynamic loader and the entry function return the same
    values, on any two operating systems and from any two states, and
    whatever the stdio calls return, have the same exit status and the
    same sequence of operations, with the same outcomes, through the
    same calls with the same arguments. *)
Theorem deterministic
  (world1 world2 : Type) (os1 : OS world1) (os2 : OS world2)
  (w1 : world1) (w2 : world2) :
  loader_answers (history os1 w1) = loader_answers (history os2 w2) ->
  status os1 w1 = status os2 w2 /\
  ops (history os1 w1) = ops (history os2 w2) /\
  steps (history os1 w1) = steps (history os2 w2) /\
  requests (history os1 w1) = requests (history os2 w2).
Proof.
  unfold status, history.
  rewrite (shape_status _ _ (main_shape _ os1 w1)).
  rewrite (shape_status _ _ (main_shape _ os2 w2)).
  generalize (main_shape _ os1 w1) (main_shape _ os2 w2).
  generalize (returned (run os1 main w1)) (log (run os1 main w1)).
  generalize (returned (run os2 main w2)) (log (run os2 main w2)).
  intros ret2 t2 ret1 t1 Hs1 Hs2 Hsame.
  destruct Hs1, Hs2;
    cbn [loader_answers loader_answer] in Hsame;
    try discriminate Hsame;
    inversion Hsame; clear Hsame; unfold NULL in *; subst;
    try congruence;
    repeat split.
Qed.

(** ** Runs on the two small operating systems *)

Import Fixtures.

Example run_good :
  history (machine good) "" =
    [ObsDlopen path RTLD_LAZY 4096; ObsDlsym 4096 "ModuleEntry" 4104;
     ObsCall 4104 4096 1; ObsDlclose 4096 0]
  /\ status (machine good) "" = 0.
Proof. split; reflexivity. Qed.

Example run_init_fails :
  final (run (machine init_fails) main "") = ("failed to init" ++ nl)%string
  /\ status (machine init_fails) "" = 1.
Proof. split; reflexivity. Qed.

Example run_no_symbol :
  final (run (machine no_symbol) main "") = ("dlsym: error" ++ nl)%string
  /\ ops (history (machine no_symbol) "") = [Load; Resolve; Unload].
Proof. split; reflexivity. Qed.

Example run_scripted_close_fails :
  history scripted [4096; 4104; 1; -1] =
    [ObsDlopen path RTLD_LAZY 4096; ObsDlsym 4096 "ModuleEntry" 4104;
     ObsCall 4104 4096 1; ObsDlclose 4096 (-1); ObsPerror "dlclose"].
Proof. reflexivity. Qed.

Lemma success_path_witness :
  (succeeded Load (history (machine good) "") = true /\
   succeeded Resolve (history (machine good) "") = true /\
   succeeded Invoke (history (machine good) "") = true /\
   succeeded Unload (history (machine good) "") = true) /\
  (status (machine good) "" = 0 /\
   ops (history (machine good) "") = [Load; Resolve; Invoke; Unload] /\
   (forall o : op, attempts o (history (machine good) "") = 1%nat)).
Proof.
  split.
  - repeat split; reflexivity.
  - apply (success_path string (machine good) ""); reflexivity.
Defined.

Lemma init_failure_path_witness :
  (succeeded Load (history (machine init_fails) "") = true /\
   succeeded Resolve (history (machine init_fails) "") = true /\
   failed Invoke (history (machine init_fails) "") = true) /\
  (status (machine init_fails) "" = 1 /\
   status (machine init_fails) "" <> 0 /\
   (exists n : Z,
      diagnostics (history (machine init_fails) "") =
        [ObsPrintf ("failed to init" ++ nl)%string n]) /\
   attempts Unload (history (machine init_fails) "") = 0%nat /\
   ops (history (machine init_fails) "") = [Load; Resolve; Invoke]).
Proof.
  split.
  - repeat split; reflexivity.
  - apply (init_failure_path string (machine init_fails) ""); reflexivity.
Defined.

Lemma load_failure_path_witness :
  failed Load (history (machine missing) "") = true /\
  (status (machine missing) "" = 1 /\
   status (machine missing) "" <> 0 /\
   ops (history (machine missing) "") = [Load] /\
   attempts Load (history (machine missing) "") = 1%nat /\
   attempts Resolve (history (machine missing) "") = 0%nat /\
   attempts Invoke (history (machine missing) "") = 0%nat /\
   attempts Unload (history (machine missing) "") = 0%nat).
Proof.
  split.
  - reflexivity.
  - apply (load_failure_path string (machine missing) ""); reflexivity.
Defined.

Lemma resolve_failure_path_witness :
  (succeeded Load (history (machine no_symbol) "") = true /\
   failed Resolve (history (machine no_symbol) "") = true) /\
  ((exists (lib : ptr) (c : Z),
      lib <> NULL /\
      history (machine no_symbol) "" =
        [ObsDlopen path RTLD_LAZY lib; ObsDlsym lib "ModuleEntry" NULL;
         ObsPerror "dlsym"; ObsDlclose lib c]) /\
   diagnostics (history (machine no_symbol) "") = [ObsPerror "dlsym"] /\
   status (machine no_symbol) "" = 1 /\
   status (machine no_symbol) "" <> 0 /\
   attempts Unload (history (machine no_symbol) "") = 1%nat /\
   attempts Invoke (history (machine no_symbol) "") = 0%nat).
Proof.
  split.
  - split; reflexivity.
  - apply (resolve_failure_path string (machine no_symbol) ""); reflexivity.
Defined.

Lemma unload_failure_path_witness :
  (succeeded Load (history scripted [4096; 4104; 1; -1]) = true /\
   succeeded Resolve (history scripted [4096; 4104; 1; -1]) = true /\
   succeeded Invoke (history scripted [4096; 4104; 1; -1]) = true /\
   failed Unload (history scripted [4096; 4104; 1; -1]) = true) /\
  (diagnostics (history scripted [4096; 4104; 1; -1]) = [ObsPerror "dlclose"] /\
   status scripted [4096; 4104; 1; -1] = 1 /\
   status scripted [4096; 4104; 1; -1] <> 0 /\
   ops (history scripted [4096; 4104; 1; -1]) = [Load; Resolve; Invoke; Unload] /\
   (forall o : op, attempts o (history scripted [4096; 4104; 1; -1]) = 1%nat)).
Proof.
  split.
  - repeat split; reflexivity.
  - apply (unload_failure_path (list Z) scripted [4096; 4104; 1; -1]);
      reflexivity.
Defined.

Lemma deterministic_witness :
  loader_answers (history (machine init_fails) "") =
    loader_answers (history scripted [4096; 4104; 0; -1]) /\
  (status (machine init_fails) "" = status scripted [4096; 4104; 0; -1] /\
   ops (history (machine init_fails) "") =
     ops (history scripted [4096; 4104; 0; -1]) /\
   steps (history (machine init_fails) "") =
     steps (history scripted [4096; 4104; 0; -1]) /\
   requests (history (machine init_fails) "") =
     requests (history scripted [4096; 4104; 0; -1])).
Proof.
  split.
  - reflexivity.
  - apply (deterministic string (list Z) (machine init_fails) scripted
             "" [4096; 4104; 0; -1]); reflexivity.
Defined.

Lemma exit_codes_witness :
  (failed Load (history (machine close_fails) "") ||
   failed Resolve (history (machine close_fails) "") ||
   failed Invoke (history (machine close_fails) "") ||
   failed Unload (history (machine close_fails) "") = true) /\
  status (machine close_fails) "" = 1.
Proof.
  split.
  - reflexivity.
  - apply (proj2 (proj1 (proj2 (exit_codes string (machine close_fails) "")))).
    reflexivity.
Defined.

Lemma linear_state_machine_witness :
  steps (history (machine no_symbol) "") =
    [(Load, true)] ++ (Resolve, false) :: [(Unload, true)] /\
  ([(Unload, true)] = [] \/
   Resolve = Resolve /\ exists b : bool, [(Unload, true)] = [(Unload, b)]).
Proof.
  split.
  - reflexivity.
  - apply (proj2 (proj2 (linear_state_machine string (machine no_symbol) ""))
             [(Load, true)] [(Unload, true)] Resolve).
    reflexivity.
Defined.

Lemma diagnostics_per_failure_witness :
  failed Invoke (history (machine init_fails) "") = true /\
  exists n : Z,
    diagnostics (history (machine init_fails) "") =
      [ObsPrintf ("failed to init" ++ nl)%string n].
Proof.
  split.
  - reflexivity.
  - apply (proj1 (proj2 (proj2
             (diagnostics_per_failure string (machine init_fails) "")))).
    reflexivity.
Defined.

Lemma entry_never_called_when_null_witness :
  In (ObsDlsym 4096 "ModuleEntry" NULL) (history (machine no_symbol) "") /\
  ((exists c : Z,
      history (machine no_symbol) "" =
        [ObsDlopen path RTLD_LAZY 4096; ObsDlsym 4096 "ModuleEntry" NULL;
         ObsPerror "dlsym"; ObsDlclose 4096 c]) /\
   status (machine no_symbol) "" = 1 /\
   attempts Invoke (history (machine no_symbol) "") = 0%nat).
Proof.
  split.
  - right. left. reflexivity.
  - apply (proj2 (entry_never_called_when_null string (machine no_symbol) "")
             4096 "ModuleEntry").
    right. left. reflexivity.
Defined.

(** ** More on [main]: the handle, the order of the calls, the messages *)

(** A position in a log: the calls before it, the call, the calls after
    it; taken apart by the length of the part before. *)
Ltac at_position Hsplit :=
  match type of Hsplit with
  | _ = ?pre ++ _ =>
      destruct pre as [|?o1 [|?o2 [|?o3 [|?o4 [|?o5 [|?o6 ?pre']]]]]];
      cbn [app] in Hsplit; inversion Hsplit; clear Hsplit; subst
  end.

Ltac members :=
  repeat match goal with
  | Hin : In _ [] |- _ => destruct Hin
  | Hin : In _ (_ :: _) |- _ =>
      let Heq := fresh "Heq" in
      destruct Hin as [Heq | Hin]; [inversion Heq; clear Heq; subst |]
  end.

(** Case analysis on the log alone. *)
Ltac by_log os w :=
  unfold history in *;
  generalize (main_shape _ os w);
  generalize (log (run os main w));
  generalize (returned (run os main w));
  let ret := fresh "ret" in let t := fresh "t" in let Hs := fresh "Hs" in
  intros ret t Hs; intros; destruct Hs; known_tests; read_log;
  try discriminate.

Section Handle.

Variable world : Type.
Variable os : OS world.
Variable w : world.

(** X1: the only handle [main] ever passes on is the non-null one that
    [dlopen] of the fixed path returned in the same run: to [dlsym]
    (always for "ModuleEntry"), to the entry function as its argument,
    and to [dlclose]. *)
Theorem handle_discipline :
  (forall (h : ptr) (s : string) (f : ptr),
     In (ObsDlsym h s f) (history os w) ->
     h <> NULL /\ s = "ModuleEntry" /\
     In (ObsDlopen path RTLD_LAZY h) (history os w)) /\
  (forall (f arg : ptr) (r : Z),
     In (ObsCall f arg r) (history os w) ->
     arg <> NULL /\ In (ObsDlopen path RTLD_LAZY arg) (history os w)) /\
  (forall (h : ptr) (c : Z),
     In (ObsDlclose h c) (history os w) ->
     h <> NULL /\ In (ObsDlopen path RTLD_LAZY h) (history os w)).
Proof.
  by_log os w; repeat split; intros; members;
    solve [now apply Z.eqb_neq | reflexivity | left; reflexivity].
Qed.

(** X2: the handle is not used after its release: whatever follows a
    [dlclose] in a run is nothing, or the one [perror] that reports its
    failure; no [dlsym], no call of the entry function and no second
    [dlclose] comes after it. *)
Theorem no_use_after_release
  (pre post : trace) (h : ptr) (c : Z) :
  history os w = pre ++ ObsDlclose h c :: post ->
  post = [] \/ (c <> 0 /\ post = [ObsPerror "dlclose"]).
Proof.
  by_log os w;
    match goal with Hsplit : _ = _ ++ _ |- _ => at_position Hsplit end;
    auto.
  right. split; [now apply Z.eqb_neq | reflexivity].
Qed.

(** X3: the balance of the handle: [dlclose] is attempted exactly once
    when the load succeeded and the entry function did not report a
    failure, and not at all otherwise; so a loaded library is left open
    at exit exactly when the entry function returned zero. *)
Theorem release_balance :
  attempts Unload (history os w) =
    (if succeeded Load (history os w) && negb (failed Invoke (history os w))
     then 1%nat else 0%nat) /\
  (succeeded Load (history os w) = true ->
   (attempts Unload (history os w) = 0%nat <->
    failed Invoke (history os w) = true)).
Proof.
  by_log os w; repeat split; intros; try discriminate; reflexivity.
Qed.

(** X4: each message directly follows the call it reports: a [perror]
    comes right after the [dlopen] or [dlsym] that returned null or the
    [dlclose] that returned non-zero, under that call's name, with no
    call in between; the [printf] comes right after the call of the
    entry function that returned zero and is the last call of the
    run. *)
Theorem message_follows_failed_call :
  (forall (pre post : trace) (s : string),
     history os w = pre ++ ObsPerror s :: post ->
     (s = "dlopen" /\ pre = [ObsDlopen path RTLD_LAZY NULL] /\ post = []) \/
     (s = "dlsym" /\
      exists (h : ptr) (c : Z),
        pre = [ObsDlopen path RTLD_LAZY h; ObsDlsym h "ModuleEntry" NULL] /\
        post = [ObsDlclose h c]) \/
     (s = "dlclose" /\
      exists (pre' : trace) (h : ptr) (c : Z),
        pre = pre' ++ [ObsDlclose h c] /\ c <> 0 /\ post = [])) /\
  (forall (pre post : trace) (s : string) (n : Z),
     history os w = pre ++ ObsPrintf s n :: post ->
     exists (pre' : trace) (f arg : ptr),
       pre = pre' ++ [ObsCall f arg 0] /\ post = []).
Proof.
  by_log os w; split; intros;
    match goal with Hsplit : _ = _ ++ _ |- _ => at_position Hsplit end.
  - left. auto.
  - right. left. split; [reflexivity |]. now exists lib, c.
  - exists [ObsDlopen path RTLD_LAZY lib; ObsDlsym lib "ModuleEntry" f], f, lib.
    split; reflexivity.
  - right. right. split; [reflexivity |].
    exists [ObsDlopen path RTLD_LAZY lib; ObsDlsym lib "ModuleEntry" f;
            ObsCall f lib r], lib, c.
    repeat split. now apply Z.eqb_neq.
Qed.

(** X5: whatever the environment answers, a run opens one library only,
    the one at the fixed path, lazily, as its first call, and makes at
    least two and at most five external calls in all. *)
Theorem one_fixed_library :
  (forall (p : string) (fl : Z) (lib : ptr),
     In (ObsDlopen p fl lib) (history os w) -> p = path /\ fl = RTLD_LAZY) /\
  (exists (lib : ptr) (rest : trace),
     history os w = ObsDlopen path RTLD_LAZY lib :: rest /\
     (1 <= List.length rest <= 4)%nat) /\
  attempts Load (history os w) = 1%nat.
Proof.
  by_log os w; repeat split; intros; members; auto;
    eexists _, _; (split; [reflexivity | cbn; lia]).
Qed.

End Handle.

Lemma handle_discipline_witness :
  In (ObsDlclose 4096 0) (history (machine good) "") /\
  (4096 <> NULL /\ In (ObsDlopen path RTLD_LAZY 4096) (history (machine good) "")).
Proof.
  split.
  - right. right. right. left. reflexivity.
  - apply (proj2 (proj2 (handle_discipline string (machine good) "")) 4096 0).
    right. right. right. left. reflexivity.
Defined.

Lemma no_use_after_release_witness :
  history scripted [4096; 4104; 1; -1] =
    [ObsDlopen path RTLD_LAZY 4096; ObsDlsym 4096 "ModuleEntry" 4104;
     ObsCall 4104 4096 1] ++ ObsDlclose 4096 (-1) :: [ObsPerror "dlclose"] /\
  ([ObsPerror "dlclose"] = [] \/
   (-1 <> 0 /\ [ObsPerror "dlclose"] = [ObsPerror "dlclose"])).
Proof.
  split.
  - reflexivity.
  - apply (no_use_after_release (list Z) scripted [4096; 4104; 1; -1]
             [ObsDlopen path RTLD_LAZY 4096; ObsDlsym 4096 "ModuleEntry" 4104;
              ObsCall 4104 4096 1]
             [ObsPerror "dlclose"] 4096 (-1)).
    reflexivity.
Defined.

Lemma release_balance_witness :
  succeeded Load (history (machine init_fails) "") = true /\
  failed Invoke (history (machine init_fails) "") = true /\
  attempts Unload (history (machine init_fails) "") = 0%nat.
Proof.
  split; [reflexivity | split; [reflexivity |]].
  apply (proj2 (proj2 (release_balance string (machine init_fails) "")
                 eq_refl)).
  reflexivity.
Defined.

Lemma message_follows_failed_call_witness :
  history (machine init_fails) "" =
    [ObsDlopen path RTLD_LAZY 4096; ObsDlsym 4096 "ModuleEntry" 4104;
     ObsCall 4104 4096 0] ++ ObsPrintf ("failed to init" ++ nl)%string 15 :: [] /\
  exists (pre' : trace) (f arg : ptr),
    [ObsDlopen path RTLD_LAZY 4096; ObsDlsym 4096 "ModuleEntry" 4104;
     ObsCall 4104 4096 0] = pre' ++ [ObsCall f arg 0] /\ @nil obs = [].
Proof.
  split.
  - reflexivity.
  - apply (proj2 (message_follows_failed_call string (machine init_fails) "")
             [ObsDlopen path RTLD_LAZY 4096; ObsDlsym 4096 "ModuleEntry" 4104;
              ObsCall 4104 4096 0]
             [] ("failed to init" ++ nl)%string 15).
    reflexivity.
Defined.

Lemma one_fixed_library_witness :
  In (ObsDlopen path RTLD_LAZY 0) (history (machine missing) "") /\
  (path = path /\ RTLD_LAZY = RTLD_LAZY).
Proof.
  split.
  - left. reflexivity.
  - apply (proj1 (one_fixed_library string (machine missing) "")
             path RTLD_LAZY 0).
    left. reflexivity.
Defined.
